(** * A Flask service with three fixed routes: embedding and properties

    The program is [app.py]: a Flask application object with three
    view functions registered through [@app.route], and a start-up block
    that reads the port from the environment.

    The embedding has three layers.
    - [Py]: the Python values the program touches (the JSON-like dict a
      view returns, the [str] and [int] seen by [int(...)]).
    - [Werkzeug] and [Flask]: the part of the framework the program
      calls, written after the framework's documented behaviour:
      URL rules and their methods, matching, the conversion of a view's
      return value into a response, the default error responses.
    - [App] and [TestApp]: the program and its tests, definition by
      definition. *)

From Stdlib Require Import ZArith Ascii String List Bool Lia.
From stdpp Require Import base option list gmap strings.

Local Open Scope Z_scope.
Local Open Scope string_scope.

(* ===================================================================== *)
(** * Python values *)
(* ===================================================================== *)

Module Py.

(** The JSON-serialisable values the views return: string leaves and
    objects (a Python dict with string keys, in insertion order). *)
#[warnings="-register-all"]
Inductive json : Type :=
| JStr (s : string)
| JObj (members : list (string * json)).

(** What [os.environ.get(key, default)] may hand to [int]: the [str]
    stored in the environment, or the default, here an [int]. *)
Inductive value : Type :=
| VStr (s : string)
| VInt (n : Z).

Inductive exn : Type :=
| ValueError (arg : string).

(** [dict.get(key, default)] on [os.environ]. *)
Definition environ_get (environ : gmap string string) (key : string)
           (default : value) : value :=
  match environ !! key with
  | Some s => VStr s
  | None => default
  end.

(** ** [int(str)] in base 10, on ASCII text

    CPython skips leading white space, reads an optional sign, then a
    non-empty run of decimal digits in which single underscores may
    separate digits, then skips trailing white space; anything left
    over is a [ValueError]. *)

Definition is_space (c : ascii) : bool :=
  let n := nat_of_ascii c in
  ((9 <=? n)%nat && (n <=? 13)%nat) || (n =? 32)%nat.

Definition digit_value (c : ascii) : option Z :=
  let n := nat_of_ascii c in
  if ((48 <=? n)%nat && (n <=? 57)%nat) then Some (Z.of_nat (n - 48)) else None.

Definition is_underscore (c : ascii) : bool := (nat_of_ascii c =? 95)%nat.

Fixpoint skip_spaces (s : list ascii) : list ascii :=
  match s with
  | c :: s' => if is_space c then skip_spaces s' else s
  | [] => []
  end.

(** The digit loop: [prev_us] tells whether the previous character was
    an underscore; [acc] is the value read so far and [n] the number of
    digits.  Returns the value, the digit count and the unread rest. *)
Fixpoint scan_digits (s : list ascii) (prev_us : bool) (acc : Z) (n : nat)
  : option (Z * nat * list ascii) :=
  match s with
  | c :: s' =>
      if is_underscore c then
        if prev_us then None else scan_digits s' true acc n
      else
        match digit_value c with
        | Some d => scan_digits s' false (10 * acc + d) (S n)
        | None => if prev_us then None else Some (acc, n, s)
        end
  | [] => if prev_us then None else Some (acc, n, [])
  end.

(** [sys.int_info.default_max_str_digits]: longer digit strings are
    refused with a [ValueError]. *)
Definition max_str_digits : nat := 4300.

Definition parse_unsigned (s : list ascii) : option Z :=
  match s with
  | [] => None
  | c :: _ =>
      if is_underscore c then None
      else
        match scan_digits s false 0 0 with
        | Some (v, n, rest) =>
            if (n =? 0)%nat then None
            else if (max_str_digits <? n)%nat then None
            else match skip_spaces rest with
                 | [] => Some v
                 | _ :: _ => None
                 end
        | None => None
        end
  end.

Definition int_of_str (s : string) : option Z :=
  match skip_spaces (list_ascii_of_string s) with
  | [] => None
  | c :: s' =>
      if (nat_of_ascii c =? 43)%nat then parse_unsigned s'
      else if (nat_of_ascii c =? 45)%nat then Z.opp <$> parse_unsigned s'
      else parse_unsigned (c :: s')
  end.

(** The builtin [int(x)]: the identity on an [int], the parser on a
    [str]. *)
Definition int (x : value) : exn + Z :=
  match x with
  | VInt n => inr n
  | VStr s =>
      match int_of_str s with
      | Some n => inr n
      | None => inl (ValueError s)
      end
  end.

(** ** [str] methods used on header text

    Header text reaches the program as Latin-1 code points, one per
    byte. *)

(** [str.lower]: the capital letters of ASCII and of Latin-1. *)
Definition lower_char (c : ascii) : ascii :=
  let n := nat_of_ascii c in
  if ((65 <=? n)%nat && (n <=? 90)%nat)
     || ((192 <=? n)%nat && (n <=? 222)%nat && negb (n =? 215)%nat)
  then ascii_of_nat (n + 32) else c.

Fixpoint lower (s : string) : string :=
  match s with
  | EmptyString => EmptyString
  | String c s' => String (lower_char c) (lower s')
  end.

(** The characters [str.strip] removes. *)
Definition is_strip_space (c : ascii) : bool :=
  let n := nat_of_ascii c in
  ((9 <=? n)%nat && (n <=? 13)%nat) || ((28 <=? n)%nat && (n <=? 32)%nat)
  || (n =? 133)%nat || (n =? 160)%nat.

Fixpoint lstrip (s : list ascii) : list ascii :=
  match s with
  | c :: s' => if is_strip_space c then lstrip s' else s
  | [] => []
  end.

Definition strip (s : string) : string :=
  string_of_list_ascii
    (rev (lstrip (rev (lstrip (list_ascii_of_string s))))).

(** [str.split(sep)] for a one-character separator: the pieces between
    the separators, at least one. *)
Fixpoint split (sep : ascii) (s : string) : list string :=
  match s with
  | EmptyString => [EmptyString]
  | String c s' =>
      if bool_decide (c = sep) then EmptyString :: split sep s'
      else match split sep s' with
           | piece :: pieces => String c piece :: pieces
           | [] => [String c EmptyString]
           end
  end.

End Py.

(* ===================================================================== *)
(** * Werkzeug: requests, HTTP errors, URL rules and matching *)
(* ===================================================================== *)

Module Werkzeug.

(** The process-wide state a request handler could reach: the
    environment, and the address [app.run] was given. *)
Record Process : Type := mkProcess {
  environ : gmap string string;
  host : string;
  port : Z
}.



(** The request object a view can read.  [method] is the request
    method in upper case; [path] is the path of the request target,
    percent-decoded; [args] is the query string, [headers] the header
    fields and [data] the body. *)
Record Request : Type := mkRequest {
  method : string;
  path : string;
  args : list (string * string);
  headers : list (string * string);
  data : string
}.

(** The value the WSGI environment holds for a header: the values of
    the fields of that name (letter case apart), joined by commas. *)
Definition header_values (name : string) (req : Request) : list string :=
  snd <$> filter (fun h => Py.lower h.1 = name) (headers req).

Fixpoint join_commas (vs : list string) : string :=
  match vs with
  | [] => ""
  | [v] => v
  | v :: vs' => v ++ "," ++ join_commas vs'
  end.

Definition environ_header (name : string) (req : Request) : option string :=
  match header_values name req with
  | [] => None
  | vs => Some (join_commas vs)
  end.

(** The address a redirect sends the client to, by what it is made of:
    the host the request named, or else the server's own address; the new
    path; the query string, passed on. *)
Record Url : Type := mkUrl {
  url_host : string + (string * Z);
  url_path : string;
  url_query : list (string * string)
}.

(** The HTTP errors the dispatch can raise. *)
Inductive HTTPException : Type :=
| NotFound
| MethodNotAllowed (valid_methods : list string)
| InternalServerError
| WebsocketMismatch
| RequestRedirect (new_url : Url).

Definition code (e : HTTPException) : Z :=
  match e with
  | NotFound => 404
  | MethodNotAllowed _ => 405
  | InternalServerError => 500
  | WebsocketMismatch => 400
  | RequestRedirect _ => 308
  end.

(** A rule string is either plain text, or plain text followed by one
    [<path:arg>] converter. *)
Inductive Pattern : Type :=
| Exact (s : string)
| PathUnder (pre : string) (arg : string).

(** Every rule here is an HTTP rule (none is registered for WebSocket). *)
Record Rule : Type := mkRule {
  rule : Pattern;
  methods : list string;
  endpoint : string;
  provide_automatic_options : bool
}.

(** [Rule.__init__]: a rule that answers GET also answers HEAD. *)
Definition Rule_init (p : Pattern) (ms : list string) (ep : string)
           (auto_options : bool) : Rule :=
  let ms' :=
    if bool_decide ("GET" ∈ ms) && negb (bool_decide ("HEAD" ∈ ms))
    then (ms ++ ["HEAD"])%list else ms in
  mkRule p ms' ep auto_options.

(** How a pattern takes a path: with arguments, not at all, or only
    with a slash added at the end (strict slashes). *)
Inductive PatternMatch : Type :=
| Hit (view_args : list (string * string))
| SlashRequired
| Miss.

Definition newline : ascii := ascii_of_nat 10.

(** Plain text takes its own path, and asks for the slash when the path
    is the text without its final slash.  The [path] converter's
    expression is [[^/].*?] up to the end of the path: a first character
    that is no slash, then any characters but the line feed. *)
Definition match_pattern (p : Pattern) (path : string) : PatternMatch :=
  match p with
  | Exact s =>
      if bool_decide (s = path) then Hit []
      else if bool_decide (s = path ++ "/") then SlashRequired
      else Miss
  | PathUnder pre arg =>
      if String.prefix pre path then
        match String.substring (String.length pre)
                (String.length path - String.length pre)%nat path with
        | EmptyString => Miss
        | String c rest =>
            if bool_decide (c = "/"%char) then Miss
            else if bool_decide (newline ∈ list_ascii_of_string rest)
                 then Miss
                 else Hit [(arg, String c rest)]
        end
      else Miss
  end.

(** One walk of the matcher through the rules.  A rule that takes the
    path under another method adds its methods to [have_match_for]; one
    that takes path and method of a WebSocket request sets
    [websocket_mismatch]; either way the walk goes on. *)
Inductive Walk : Type :=
| Matched (r : Rule) (view_args : list (string * string))
| Slash
| Unmatched (have_match_for : list string) (websocket_mismatch : bool).

Fixpoint match_rules (rules : list Rule) (method path : string)
         (websocket : bool) (have_match_for : list string)
         (websocket_mismatch : bool) : Walk :=
  match rules with
  | [] => Unmatched have_match_for websocket_mismatch
  | r :: rules' =>
      match match_pattern (rule r) path with
      | Hit view_args =>
          if bool_decide (method ∈ methods r) then
            if websocket
            then match_rules rules' method path websocket have_match_for true
            else Matched r view_args
          else match_rules rules' method path websocket
                 (list_union have_match_for (methods r)) websocket_mismatch
      | SlashRequired =>
          if negb websocket && bool_decide (method ∈ methods r) then Slash
          else match_rules rules' method path websocket
                 have_match_for websocket_mismatch
      | Miss =>
          match_rules rules' method path websocket
            have_match_for websocket_mismatch
      end
  end.

(** [re.sub("/{2,}?", "/", path)]: from left to right, each two slashes
    become one. *)
Fixpoint merge_slashes (s : string) : string :=
  match s with
  | EmptyString => EmptyString
  | String c s' =>
      match s' with
      | String c' s'' =>
          if bool_decide (c = "/"%char) && bool_decide (c' = "/"%char)
          then String "/" (merge_slashes s'')
          else String c (merge_slashes s')
      | EmptyString => String c EmptyString
      end
  end.

(** The matcher: a walk on the path, and when it finds nothing a second
    walk on the path with its slashes merged; what the second walk finds
    is not served but redirected to. *)
Inductive MatcherResult : Type :=
| Found (r : Rule) (view_args : list (string * string))
| RequestPath (path_info : string)
| NoMatch (have_match_for : list string) (websocket_mismatch : bool).

Definition matcher_match (rules : list Rule) (path method : string)
           (websocket : bool) : MatcherResult :=
  match match_rules rules method path websocket [] false with
  | Matched r view_args => Found r view_args
  | Slash => RequestPath (path ++ "/")
  | Unmatched h w =>
      match match_rules rules method (merge_slashes path) websocket h w with
      | Matched _ _ => RequestPath (merge_slashes path)
      | Slash => RequestPath (merge_slashes path ++ "/")
      | Unmatched h' w' => NoMatch h' w'
      end
  end.

(** [Map.bind_to_environ]: what the adapter keeps of the request.  The
    request is a WebSocket request when [Connection] lists [upgrade]
    and [Upgrade] is [websocket]. *)
Record MapAdapter : Type := mkMapAdapter {
  url_map : list Rule;
  server_name : string + (string * Z);
  path_info : string;
  query_args : list (string * string);
  websocket : bool
}.

Definition is_websocket (req : Request) : bool :=
  existsb (fun v => bool_decide (Py.strip v = "upgrade"))
    (Py.split ","%char
       (Py.lower (default "" (environ_header "connection" req))))
  && bool_decide (Py.lower (default "" (environ_header "upgrade" req))
                  = "websocket").

Definition get_host (req : Request) (st : Process) : string + (string * Z) :=
  match environ_header "host" req with
  | Some h => inl h
  | None => inr (host st, port st)
  end.

Definition bind_to_environ (rules : list Rule) (req : Request) (st : Process)
  : MapAdapter :=
  mkMapAdapter rules (get_host req st) (path req) (args req)
    (is_websocket req).

Fixpoint lstrip_slashes (s : string) : string :=
  match s with
  | String c s' => if bool_decide (c = "/"%char) then lstrip_slashes s' else s
  | EmptyString => EmptyString
  end.

(** The path the rules are matched against: one slash, then the path
    without its leading slashes; the empty path stays empty. *)
Definition path_part (path_info : string) : string :=
  match path_info with
  | EmptyString => EmptyString
  | _ => "/" ++ lstrip_slashes path_info
  end.

Definition make_redirect_url (adapter : MapAdapter) (new_path : string) : Url :=
  mkUrl (server_name adapter) new_path (query_args adapter).

(** [MapAdapter.match]: the rule and its arguments, or a redirect, or
    [MethodNotAllowed] when some rule takes the path under other
    methods, or [WebsocketMismatch], or [NotFound]. *)
Definition match_ (adapter : MapAdapter) (method : string)
  : HTTPException + (Rule * list (string * string)) :=
  match matcher_match (url_map adapter) (path_part (path_info adapter))
          method (websocket adapter) with
  | Found r view_args => inr (r, view_args)
  | RequestPath new_path =>
      inl (RequestRedirect (make_redirect_url adapter new_path))
  | NoMatch (m :: ms) _ => inl (MethodNotAllowed (m :: ms))
  | NoMatch [] true => inl WebsocketMismatch
  | NoMatch [] false => inl NotFound
  end.

(** [MapAdapter.allowed_methods]: match with a method no rule has. *)
Definition allowed_methods (adapter : MapAdapter) : list string :=
  match match_ adapter "--" with
  | inl (MethodNotAllowed valid_methods) => valid_methods
  | _ => []
  end.

End Werkzeug.

(* ===================================================================== *)
(** * Flask: responses, views and dispatch *)
(* ===================================================================== *)

Module Flask.

Import Werkzeug.

(** The body of a response object: text, the JSON document [jsonify]
    makes of a value, or the framework's default page for an HTTP
    error. *)
Inductive Body : Type :=
| Text (s : string)
| Json (j : Py.json)
| DefaultPage (e : HTTPException).

(** [allow] holds the methods of the [Allow] header.  They come from
    a Python set, whose order of iteration is fixed within a process and
    may differ from one process to the next: the list stands for the set,
    in the order the matcher added the methods. *)
Record Response : Type := mkResponse {
  status_code : Z;
  mimetype : string;
  body : Body;
  allow : list string;
  location : option Url
}.

(** [Response.get_json]. *)
Definition get_json (r : Response) : option Py.json :=
  match body r with
  | Json j => Some j
  | _ => None
  end.

(** What a view may return: a [str], a [dict], a response object, or one
    of these paired with a status code. *)
Inductive body_rv : Type :=
| RvStr (s : string)
| RvDict (d : list (string * Py.json))
| RvResponse (r : Response).

Inductive rv : Type :=
| Plain (b : body_rv)
| WithStatus (b : body_rv) (status : Z).

(** A view function is called with the matched arguments; the request
    and the process state are within its reach.  It returns a value or
    raises an HTTP error, and leaves a process state behind. *)
Abbreviation View :=
  (Request -> list (string * string) -> Process ->
   (HTTPException + rv) * Process)%type.

Record Flask : Type := mkFlask {
  url_map : list Rule;
  view_functions : gmap string View
}.

(** [Flask.make_response] on a return value. *)
Definition make_body (b : body_rv) : Response :=
  match b with
  | RvStr s => mkResponse 200 "text/html" (Text s) [] None
  | RvDict d => mkResponse 200 "application/json" (Json (Py.JObj d)) [] None
  | RvResponse r => r
  end.

Definition make_response (v : rv) : Response :=
  match v with
  | Plain b => make_body b
  | WithStatus b status =>
      let r := make_body b in
      mkResponse status (mimetype r) (body r) (allow r) (location r)
  end.

(** The response of an HTTP error nobody handles.  The error is run as
    a WSGI application on the request: it gives its code, its headers
    ([Allow] for 405, [Location] for a redirect) and its default page,
    except that for HEAD the page is left out. *)
Definition handle_http_exception (e : HTTPException) (req : Request)
  : Response :=
  mkResponse (code e) "text/html"
    (if bool_decide (method req = "HEAD") then Text "" else DefaultPage e)
    match e with MethodNotAllowed ms => ms | _ => [] end
    match e with RequestRedirect u => Some u | _ => None end.

(** [Flask.add_url_rule] with [methods] given; OPTIONS is added and
    answered by the framework. *)
Definition add_url_rule (p : Pattern) (ep : string) (view_func : View)
           (ms : list string) (app : Flask) : Flask :=
  let auto_options := negb (bool_decide ("OPTIONS" ∈ ms)) in
  let ms' := if auto_options then (ms ++ ["OPTIONS"])%list else ms in
  mkFlask (url_map app ++ [Rule_init p ms' ep auto_options])%list
          (<[ep := view_func]> (view_functions app)).

(** [@app.route(rule)] on a function named [ep]: GET only.  The rule
    strings of this program hold no converter. *)
Definition route (rule_string : string) (ep : string) (view_func : View)
           (app : Flask) : Flask :=
  add_url_rule (Exact rule_string) ep view_func ["GET"] app.

(** [send_from_directory]: [NotFound] when the directory has no such
    file; otherwise the response [send_file] builds, which depends on
    the request (conditional and range headers).  A directory is given
    by its files, each with the way it is sent. *)
Definition send_from_directory (directory : list (string * (Request -> Response)))
           (req : Request) (filename : string) : HTTPException + rv :=
  match list_find (fun f => f.1 = filename) directory with
  | Some (_, f) => inr (Plain (RvResponse (f.2 req)))
  | None => inl NotFound
  end.

Definition send_static_file (directory : list (string * (Request -> Response)))
  : View :=
  fun req view_args st =>
    match list_find (fun a => a.1 = "filename") view_args with
    | Some (_, a) => (send_from_directory directory req a.2, st)
    | None => (inl InternalServerError, st)
    end.

(** [Flask(import_name)]: [static_folder] defaults to ["static"], so the
    constructor registers the rule [/static/<path:filename>] for the
    endpoint [static], whether or not the folder exists. *)
Definition Flask_init (static_folder : list (string * (Request -> Response)))
  : Flask :=
  add_url_rule (PathUnder "/static/" "filename") "static"
    (send_static_file static_folder) ["GET"] (mkFlask [] ∅).

(** [Flask.create_url_adapter]. *)
Definition create_url_adapter (app : Flask) (req : Request) (st : Process)
  : MapAdapter :=
  bind_to_environ (url_map app) req st.

Definition make_default_options_response (app : Flask) (req : Request)
           (st : Process) : Response :=
  mkResponse 200 "text/html" (Text "")
    (allowed_methods (create_url_adapter app req st)) None.

(** [Flask.dispatch_request]: a routing error is raised again; OPTIONS
    is answered for the rule; otherwise the view of the endpoint runs. *)
Definition dispatch_request (app : Flask) (req : Request) (st : Process)
  : (HTTPException + rv) * Process :=
  match match_ (create_url_adapter app req st) (method req) with
  | inl e => (inl e, st)
  | inr (r, view_args) =>
      if provide_automatic_options r && bool_decide (method req = "OPTIONS")
      then (inr (Plain (RvResponse
                          (make_default_options_response app req st))), st)
      else
        match view_functions app !! endpoint r with
        | Some view_func => view_func req view_args st
        | None => (inl InternalServerError, st)
        end
  end.

(** [Flask.full_dispatch_request]: dispatch, then turn the return value
    or the error into a response. *)
Definition full_dispatch_request (app : Flask) (req : Request) (st : Process)
  : Response * Process :=
  let res := dispatch_request app req st in
  (match res.1 with
   | inl e => handle_http_exception e req
   | inr v => make_response v
   end, res.2).

(** [app.run(host, port)]: the process goes on as a server for
    [(host, port)]; the socket that gives is [server_bind]'s. *)
Definition run (app : Flask) (host : string) (port : Z)
           (environ : gmap string string) : Process :=
  mkProcess environ host port.

(** The running server answers the requests one after the other,
    handing the process state from each to the next. *)
Fixpoint serve (app : Flask) (st : Process) (reqs : list Request)
  : list Response * Process :=
  match reqs with
  | [] => ([], st)
  | req :: reqs' =>
      let r := full_dispatch_request app req st in
      let rs := serve app r.2 reqs' in
      (r.1 :: rs.1, rs.2)
  end.

End Flask.

(* ===================================================================== *)
(** * The program: app.py *)
(* ===================================================================== *)

Module App.

Import Werkzeug Flask.

(** The project has no [static] directory next to [app.py]. *)
Definition static_folder : list (string * (Request -> Response)) := [].

Definition hello : View :=
  fun _ _ st => (inr (Plain (RvStr "Hello, from Fincra!")), st).

Definition health : View :=
  fun _ _ st =>
    (inr (WithStatus (RvDict [("status", Py.JStr "healthy")]) 200), st).

Definition ready : View :=
  fun _ _ st =>
    (inr (WithStatus (RvDict [("status", Py.JStr "ready")]) 200), st).

Definition app : Flask.Flask :=
  route "/ready" "ready" ready
    (route "/health" "health" health
       (route "/" "hello" hello
          (Flask_init static_folder))).

(** The [__main__] block. *)
Definition main (environ : gmap string string) : Py.exn + Process :=
  match Py.int (Py.environ_get environ "PORT" (Py.VInt 80)) with
  | inl e => inl e
  | inr port => inr (run app "0.0.0.0" port environ)
  end.

End App.

(* ===================================================================== *)
(** * The tests: test_app.py *)
(* ===================================================================== *)

Module TestApp.

Import Werkzeug Flask App.

(** What a test session holds: [app.config], which the fixture writes
    to, and the state of the process the tests run in. *)
Record Session : Type := mkSession {
  config : gmap string bool;
  process : Process
}.

(** The [client] fixture: [app.config['TESTING'] = True] on the shared
    application object, then a test client. *)
Definition client (s : Session) : Session :=
  mkSession (<["TESTING" := true]> (config s)) (process s).

(** [client.get(path)]: one GET request through the application.  The
    test client names the host [localhost] and itself in [User-Agent]
    (the text changes with its version) and sends no other header. *)
Definition get (user_agent : string) (p : string) (s : Session)
  : Response * Session :=
  let r := full_dispatch_request app
             (mkRequest "GET" p []
                [("Host", "localhost"); ("User-Agent", user_agent)] "")
             (process s) in
  (r.1, mkSession (config s) r.2).

(** [response.data] of a text response. *)
Definition get_data (r : Response) : option string :=
  match body r with
  | Text s => Some s
  | _ => None
  end.

(** [needle in haystack] on byte strings. *)
Fixpoint contains (needle haystack : string) : bool :=
  String.prefix needle haystack
  || match haystack with
     | String _ rest => contains needle rest
     | EmptyString => false
     end.

(** [data[key]] on the parsed JSON document. *)
Definition getitem (data : option Py.json) (key : string) : option Py.json :=
  match data with
  | Some (Py.JObj members) =>
      match list_find (fun kv => kv.1 = key) members with
      | Some (_, kv) => Some kv.2
      | None => None
      end
  | _ => None
  end.

Definition is_str (v : option Py.json) (s : string) : bool :=
  match v with
  | Some (Py.JStr s') => bool_decide (s' = s)
  | _ => false
  end.

(** Each test takes the fixture, sends its request and checks its
    assertions; the result tells whether all of them held. *)
Definition test_hello_endpoint (user_agent : string) (s : Session)
  : bool * Session :=
  let r := get user_agent "/" (client s) in
  (bool_decide (status_code r.1 = 200)
   && match get_data r.1 with
      | Some d => contains "Hello, from Fincra!" d
      | None => false
      end, r.2).

Definition test_health_endpoint (user_agent : string) (s : Session)
  : bool * Session :=
  let r := get user_agent "/health" (client s) in
  (bool_decide (status_code r.1 = 200)
   && is_str (getitem (get_json r.1) "status") "healthy", r.2).

Definition test_ready_endpoint (user_agent : string) (s : Session)
  : bool * Session :=
  let r := get user_agent "/ready" (client s) in
  (bool_decide (status_code r.1 = 200)
   && is_str (getitem (get_json r.1) "status") "ready", r.2).

Definition test_404_endpoint (user_agent : string) (s : Session)
  : bool * Session :=
  let r := get user_agent "/nonexistent" (client s) in
  (bool_decide (status_code r.1 = 404), r.2).

(** The tests of the file, and a run of some of them in some order on
    the one session. *)
Inductive test : Type :=
| Hello
| Health
| Ready
| Missing.

Definition run_test (user_agent : string) (t : test)
  : Session -> bool * Session :=
  match t with
  | Hello => test_hello_endpoint user_agent
  | Health => test_health_endpoint user_agent
  | Ready => test_ready_endpoint user_agent
  | Missing => test_404_endpoint user_agent
  end.

Fixpoint run_tests (user_agent : string) (ts : list test) (s : Session)
  : list bool * Session :=
  match ts with
  | [] => ([], s)
  | t :: ts' =>
      let r := run_test user_agent t s in
      let rs := run_tests user_agent ts' r.2 in
      (r.1 :: rs.1, rs.2)
  end.

End TestApp.

(* ===================================================================== *)
(** * Properties *)
(* ===================================================================== *)

Import Werkzeug Flask App.

(** ** Vocabulary *)

(** The four rules of the application's URL map: the constructor's, then
    one for each [@app.route]. *)
Definition static_rule : Rule :=
  mkRule (PathUnder "/static/" "filename") ["GET"; "OPTIONS"; "HEAD"] "static" true.
Definition hello_rule : Rule :=
  mkRule (Exact "/") ["GET"; "OPTIONS"; "HEAD"] "hello" true.
Definition health_rule : Rule :=
  mkRule (Exact "/health") ["GET"; "OPTIONS"; "HEAD"] "health" true.
Definition ready_rule : Rule :=
  mkRule (Exact "/ready") ["GET"; "OPTIONS"; "HEAD"] "ready" true.



(** The methods a GET-only route answers. *)
Definition route_methods : list string := ["GET"; "OPTIONS"; "HEAD"].

(** A request with the given method and path and nothing else. *)
Definition bare (m p : string) : Request := mkRequest m p [] [] "".

Definition idle : Process := mkProcess ∅ "0.0.0.0" 80.

(** What the view of an endpoint of the application returns or raises;
    the static view finds no file. *)
Definition view_value (ep : string) : HTTPException + rv :=
  if bool_decide (ep = "hello")
  then inr (Plain (RvStr "Hello, from Fincra!"))
  else if bool_decide (ep = "health")
  then inr (WithStatus (RvDict [("status", Py.JStr "healthy")]) 200)
  else if bool_decide (ep = "ready")
  then inr (WithStatus (RvDict [("status", Py.JStr "ready")]) 200)
  else inl NotFound.

(** The methods a matcher result allows. *)
Definition allowed_of (m : MatcherResult) : list string :=
  match m with
  | NoMatch (x :: xs) _ => x :: xs
  | _ => []
  end.


(** A decimal numeral: the ASCII digits of [ds], and the number they
    write. *)
Definition digit (d : nat) : ascii := ascii_of_nat (48 + d).


Definition numeral_value (ds : list nat) : Z :=
  fold_left (fun acc d => 10 * acc + Z.of_nat d) ds 0.

(** One turn of the digit loop: the value so far, then one more
    digit. *)
Definition step (acc : Z) (d : nat) : Z := 10 * acc + Z.of_nat d.

(** Text made of white space only (the empty text included). *)
Definition blank (s : string) : Prop :=
  Forall (fun c => Py.is_space c = true) (list_ascii_of_string s).

(** The characters [int] can read in base 10: white space, the two
    signs, the digits and the underscore. *)
Definition int_char (c : ascii) : bool :=
  Py.is_space c || Py.is_underscore c
  || match Py.digit_value c with Some _ => true | None => false end
  || (nat_of_ascii c =? 43)%nat || (nat_of_ascii c =? 45)%nat.

(** ASCII text: every byte below 128. *)
Definition is_ascii (s : string) : Prop :=
  Forall (fun c => (nat_of_ascii c < 128)%nat) (list_ascii_of_string s).

(** The integer literals of Python in base 10, written in ASCII, said
    without the parser: white space, an optional sign, groups of decimal
    digits with one underscore between two groups, white space; at most
    [max_str_digits] digits in all.  The value is the number the digits
    write, negated after a minus sign. *)
Definition decimal_group (g : list nat) : Prop :=
  g <> [] /\ Forall (fun d => (d < 10)%nat) g.

Definition underscored (g0 : list nat) (gs : list (list nat)) : list ascii :=
  ((digit <$> g0)
   ++ concat ((fun g => "_"%char :: (digit <$> g)) <$> gs))%list.

Definition sign_text (sg : option bool) : list ascii :=
  match sg with
  | None => []
  | Some false => ["+"%char]
  | Some true => ["-"%char]
  end.

Definition signed (sg : option bool) (v : Z) : Z :=
  match sg with
  | Some true => - v
  | _ => v
  end.

Definition int_literal (s : string) (v : Z) : Prop :=
  exists ws1 sg g0 gs ws2,
    list_ascii_of_string s
    = (ws1 ++ sign_text sg ++ underscored g0 gs ++ ws2)%list
    /\ Forall (fun c => Py.is_space c = true) ws1
    /\ Forall (fun c => Py.is_space c = true) ws2
    /\ decimal_group g0
    /\ Forall decimal_group gs
    /\ (length (g0 ++ concat gs) <= Py.max_str_digits)%nat
    /\ v = signed sg (numeral_value (g0 ++ concat gs)).


(** ** The matcher, rule by rule *)

Section MatchRules.

Variables (r : Rule) (rules : list Rule) (m p : string) (ws : bool)
          (h : list string) (w : bool).



Lemma match_rules_websocket (view_args : list (string * string)) :
  match_pattern (rule r) p = Hit view_args ->
  m ∈ methods r ->
  ws = true ->
  match_rules (r :: rules) m p ws h w = match_rules rules m p ws h true.
Proof.
  intros E Hm ->. cbn [match_rules]. rewrite E.
  now rewrite bool_decide_eq_true_2.
Qed.


End MatchRules.

Lemma match_rules_In (rules : list Rule) (m p : string) (ws : bool)
      (h : list string) (w : bool)
      (r : Rule) (view_args : list (string * string)) :
  match_rules rules m p ws h w = Matched r view_args ->
  r ∈ rules /\ match_pattern (rule r) p = Hit view_args
  /\ m ∈ methods r /\ ws = false.
Proof.
  revert h w. induction rules as [|r0 rules IH]; intros h w;
    cbn [match_rules]; [discriminate|].
  assert (Hstep : forall h' w',
             match_rules rules m p ws h' w' = Matched r view_args ->
             r ∈ r0 :: rules /\ match_pattern (rule r) p = Hit view_args
             /\ m ∈ methods r /\ ws = false).
  { intros h' w' H. destruct (IH _ _ H) as (? & ? & ? & ?).
    repeat split; [now right | assumption..]. }
  destruct (match_pattern (rule r0) p) as [a| |] eqn:E.
  - case_bool_decide as Hm; [|apply Hstep].
    destruct ws; [apply Hstep|].
    intros [= <- <-]. repeat split; [left | assumption..].
  - destruct (negb ws && bool_decide (m ∈ methods r0));
      [discriminate | apply Hstep].
  - apply Hstep.
Qed.


Lemma matcher_match_Found (rules : list Rule) (p m : string) (ws : bool)
      (r : Rule) (view_args : list (string * string)) :
  matcher_match rules p m ws = Found r view_args ->
  r ∈ rules /\ match_pattern (rule r) p = Hit view_args
  /\ m ∈ methods r /\ ws = false.
Proof.
  unfold matcher_match.
  destruct (match_rules rules m p ws [] false) as [r' a'| |h w] eqn:E.
  - intros [= <- <-]. exact (match_rules_In _ _ _ _ _ _ _ _ E).
  - discriminate.
  - destruct (match_rules rules m (merge_slashes p) ws h w); discriminate.
Qed.

(** ** Patterns and paths *)




Lemma match_pattern_Exact_Hit (s p : string) (a : list (string * string)) :
  match_pattern (Exact s) p = Hit a -> p = s /\ a = [].
Proof.
  cbn. case_bool_decide; [intros [= <-]; now split|].
  case_bool_decide; discriminate.
Qed.

Lemma match_pattern_PathUnder_args (pre arg p : string)
      (view_args : list (string * string)) :
  match_pattern (PathUnder pre arg) p = Hit view_args ->
  exists v, view_args = [(arg, v)].
Proof.
  cbn. destruct (String.prefix pre p); [|discriminate].
  destruct (String.substring _ _ p) as [|c rest]; [discriminate|].
  destruct (bool_decide (c = "/"%char)); [discriminate|].
  destruct (bool_decide (newline ∈ list_ascii_of_string rest));
    [discriminate|].
  intros [= <-]. eauto.
Qed.




(** ** The application object after the three registrations *)

Lemma app_url_map :
  Flask.url_map app = [static_rule; hello_rule; health_rule; ready_rule].
Proof. reflexivity. Qed.

Lemma app_view_static :
  view_functions app !! "static" = Some (send_static_file static_folder).
Proof. reflexivity. Qed.

Lemma app_view_hello : view_functions app !! "hello" = Some hello.
Proof. reflexivity. Qed.

Lemma app_view_health : view_functions app !! "health" = Some health.
Proof. reflexivity. Qed.

Lemma app_view_ready : view_functions app !! "ready" = Some ready.
Proof. reflexivity. Qed.


(** No path is taken by two rules of the application, so the order in
    which the matcher tries them does not matter. *)
Lemma app_rules_disjoint (p : string) (r1 r2 : Rule)
      (a1 a2 : list (string * string)) :
  r1 ∈ Flask.url_map app -> r2 ∈ Flask.url_map app ->
  match_pattern (rule r1) p = Hit a1 ->
  match_pattern (rule r2) p = Hit a2 ->
  r1 = r2.
Proof.
  rewrite app_url_map. intros H1 H2 E1 E2.
  repeat (apply elem_of_cons in H1 as [-> | H1]);
    try (now apply elem_of_nil in H1);
    repeat (apply elem_of_cons in H2 as [-> | H2]);
    try (now apply elem_of_nil in H2);
    try reflexivity;
    cbn [rule static_rule hello_rule health_rule ready_rule] in E1, E2;
    first [ apply match_pattern_Exact_Hit in E1 as [-> _]; vm_compute in E2
          | apply match_pattern_Exact_Hit in E2 as [-> _]; vm_compute in E1 ];
    discriminate.
Qed.

(** ** Dispatch in the application *)

Lemma match_app (req : Request) (st : Process) (m : string) :
  match_ (create_url_adapter app req st) m
  = match matcher_match (Flask.url_map app) (path_part (path req)) m
            (is_websocket req) with
    | Found r view_args => inr (r, view_args)
    | RequestPath new_path =>
        inl (RequestRedirect (mkUrl (get_host req st) new_path (args req)))
    | NoMatch (x :: xs) _ => inl (MethodNotAllowed (x :: xs))
    | NoMatch [] true => inl WebsocketMismatch
    | NoMatch [] false => inl NotFound
    end.
Proof. reflexivity. Qed.

Lemma match_app_Found (req : Request) (st : Process) (m : string)
      (r : Rule) (view_args : list (string * string)) :
  match_ (create_url_adapter app req st) m = inr (r, view_args) ->
  matcher_match (Flask.url_map app) (path_part (path req)) m
    (is_websocket req) = Found r view_args.
Proof.
  rewrite match_app.
  destruct (matcher_match _ _ _ _) as [r' a'|np|[|x xs] []];
    try discriminate.
  now intros [= <- <-].
Qed.

Lemma allowed_methods_app (req : Request) (st : Process) :
  allowed_methods (create_url_adapter app req st)
  = allowed_of (matcher_match (Flask.url_map app) (path_part (path req))
                  "--" (is_websocket req)).
Proof.
  unfold allowed_methods. rewrite match_app.
  now destruct (matcher_match _ _ _ _) as [r' a'|np|[|x xs] []].
Qed.

(** Dispatching ends in the routing error, or in the framework's answer
    to OPTIONS, or in what the view of the matched rule returns; the
    process state comes back as it went in. *)
Lemma dispatch_request_app (req : Request) (st : Process) :
  dispatch_request app req st
  = (match match_ (create_url_adapter app req st) (method req) with
     | inl e => inl e
     | inr (r, _) =>
         if bool_decide (method req = "OPTIONS")
         then inr (Plain (RvResponse
                            (make_default_options_response app req st)))
         else view_value (endpoint r)
     end, st).
Proof.
  unfold dispatch_request.
  destruct (match_ (create_url_adapter app req st) (method req))
    as [e | [r view_args]] eqn:E; [reflexivity|].
  apply match_app_Found, matcher_match_Found in E as (Hr & Hargs & _).
  rewrite app_url_map in Hr.
  repeat (apply elem_of_cons in Hr as [-> | Hr]);
    [| | | | now apply elem_of_nil in Hr];
    cbn [provide_automatic_options endpoint static_rule hello_rule
           health_rule ready_rule andb];
    destruct (bool_decide (method req = "OPTIONS")); try reflexivity.
  rewrite app_view_static.
  apply match_pattern_PathUnder_args in Hargs as [v ->]. reflexivity.
Qed.

Lemma full_dispatch_request_state (req : Request) (st : Process) :
  (full_dispatch_request app req st).2 = st.
Proof.
  unfold full_dispatch_request. now rewrite dispatch_request_app.
Qed.

(** The trace of responses of a run is the list of the responses each
    request gets on its own, and the state at the end is the state at
    the start. *)
Lemma serve_map (st : Process) (reqs : list Request) :
  serve app st reqs
  = ((fun req => (full_dispatch_request app req st).1) <$> reqs, st).
Proof.
  induction reqs as [|req reqs IH]; cbn [serve fmap list_fmap]; [reflexivity|].
  rewrite full_dispatch_request_state, IH. reflexivity.
Qed.

(** What the response depends on.  Two requests with the same method,
    the same path and the same answer to whether they are WebSocket
    requests get the same response, in whatever process states, unless
    the answer is a redirect, whose target names the host and carries
    the query string. *)
Lemma response_depends (req req' : Request) (st st' : Process) :
  method req = method req' ->
  path req = path req' ->
  is_websocket req = is_websocket req' ->
  (full_dispatch_request app req st).1 = (full_dispatch_request app req' st').1
  \/ (status_code (full_dispatch_request app req st).1 = 308
      /\ status_code (full_dispatch_request app req' st').1 = 308).
Proof.
  intros Hm Hp Hws. unfold full_dispatch_request.
  rewrite !dispatch_request_app. cbn [fst].
  unfold make_default_options_response, handle_http_exception.
  rewrite !allowed_methods_app, !match_app, <- Hm, <- Hp, <- Hws.
  destruct (matcher_match (Flask.url_map app) (path_part (path req))
              (method req) (is_websocket req)) as [r a|np|[|x xs] []];
    [left | right; split | left..]; reflexivity.
Qed.

(** ** Methods no rule answers *)



(** ** The three routes *)

(** A request that asks for a WebSocket, and one that does not. *)
Example upgrade_is_websocket :
  is_websocket
    (mkRequest "GET" "/" []
       [("Connection", "Upgrade"); ("Upgrade", "websocket")] "") = true.
Proof. reflexivity. Qed.

Example bare_is_not_websocket (m p : string) : is_websocket (bare m p) = false.
Proof. reflexivity. Qed.










(** ** Paths outside the three routes *)


















(** ** Requests do not interfere *)

(** C6: the same request, sent twice at any two points of any sequence
    of requests, gets the same response both times (status and body),
    namely the one it gets on its own; this holds for every request, the
    three routes included, and the run leaves the state as it found it. *)
Theorem serve_repeatable (st : Process) (req : Request)
        (before between after : list Request) :
  (serve app st (before ++ req :: between ++ req :: after)%list).1
    !! length before
  = Some (full_dispatch_request app req st).1
  /\ (serve app st (before ++ req :: between ++ req :: after)%list).1
       !! (length before + S (length between))%nat
     = Some (full_dispatch_request app req st).1
  /\ (serve app st (before ++ req :: between ++ req :: after)%list).2 = st.
Proof.
  rewrite serve_map. cbn [fst snd].
  rewrite !list_lookup_fmap.
  rewrite (list_lookup_middle before _ req (length before)) by reflexivity.
  assert (E : (before ++ req :: between ++ req :: after)%list
               !! (length before + S (length between))%nat = Some req).
  { rewrite lookup_app_r by lia.
    replace (length before + S (length between) - length before)%nat
      with (S (length between)) by lia.
    exact (list_lookup_middle between after req _ eq_refl). }
  rewrite E. repeat split.
Qed.

Example serve_three_routes :
  (serve app idle
     [bare "GET" "/health"; bare "POST" "/"; bare "GET" "/";
      bare "GET" "/health"; bare "GET" "/ready"; bare "GET" "/"]).1
  = [mkResponse 200 "application/json"
       (Json (Py.JObj [("status", Py.JStr "healthy")])) [] None;
     mkResponse 405 "text/html"
       (DefaultPage (MethodNotAllowed route_methods)) route_methods None;
     mkResponse 200 "text/html" (Text "Hello, from Fincra!") [] None;
     mkResponse 200 "application/json"
       (Json (Py.JObj [("status", Py.JStr "healthy")])) [] None;
     mkResponse 200 "application/json"
       (Json (Py.JObj [("status", Py.JStr "ready")])) [] None;
     mkResponse 200 "text/html" (Text "Hello, from Fincra!") [] None].
Proof. reflexivity. Qed.


(** The target of a redirect carries the query string of the request. *)
Example redirect_carries_query :
  location (full_dispatch_request app
              (mkRequest "GET" "/static//x" [("a", "1")] [] "") idle).1
  = Some (mkUrl (inr ("0.0.0.0", 80)) "/static/x" [("a", "1")])
  /\ location (full_dispatch_request app (bare "GET" "/static//x") idle).1
     = Some (mkUrl (inr ("0.0.0.0", 80)) "/static/x" []).
Proof. split; reflexivity. Qed.



(** C8: handling a request leaves the process state as it was: the
    environment, the host and the port the server listens on; and so
    does handling any sequence of requests. *)
Theorem request_frame (req : Request) (st : Process) :
  (full_dispatch_request app req st).2 = st
  /\ port (full_dispatch_request app req st).2 = port st
  /\ host (full_dispatch_request app req st).2 = host st
  /\ forall reqs, (serve app st reqs).2 = st.
Proof.
  rewrite full_dispatch_request_state.
  repeat split. intros reqs. now rewrite serve_map.
Qed.

(* ===================================================================== *)
(** * Further properties of the routes *)
(* ===================================================================== *)

(** X5: no request is answered with a server error: every rule's
    endpoint has its view function, every view gets the arguments it
    needs, and the status of the response is below 500. *)
Theorem no_server_error (req : Request) (st : Process) :
  (dispatch_request app req st).1 <> inl InternalServerError
  /\ status_code (full_dispatch_request app req st).1 < 500.
Proof.
  unfold full_dispatch_request. rewrite dispatch_request_app, match_app.
  cbn [fst].
  destruct (matcher_match (Flask.url_map app) (path_part (path req))
              (method req) (is_websocket req))
    as [r a|np|[|x xs] []] eqn:E;
    try (split; [discriminate | cbn; lia]).
  apply matcher_match_Found in E as (Hr & _). rewrite app_url_map in Hr.
  destruct (bool_decide (method req = "OPTIONS"));
    [split; [discriminate | cbn; lia]|].
  repeat (apply elem_of_cons in Hr as [-> | Hr];
          [vm_compute view_value; split; [discriminate | cbn; lia]|]).
  now apply elem_of_nil in Hr.
Qed.







(* ===================================================================== *)
(** * The start-up block *)
(* ===================================================================== *)

(** ** Characters *)

Lemma digit_value_digit (d : nat) :
  (d < 10)%nat -> Py.digit_value (digit d) = Some (Z.of_nat d).
Proof.
  intros H. do 10 (destruct d as [|d]; [reflexivity|]). lia.
Qed.

Lemma is_underscore_digit (d : nat) :
  (d < 10)%nat -> Py.is_underscore (digit d) = false.
Proof.
  intros H. do 10 (destruct d as [|d]; [reflexivity|]). lia.
Qed.

Lemma is_space_digit (d : nat) :
  (d < 10)%nat -> Py.is_space (digit d) = false.
Proof.
  intros H. do 10 (destruct d as [|d]; [reflexivity|]). lia.
Qed.

Lemma digit_not_sign (d : nat) :
  (d < 10)%nat ->
  (nat_of_ascii (digit d) =? 43)%nat = false
  /\ (nat_of_ascii (digit d) =? 45)%nat = false.
Proof.
  intros H. do 10 (destruct d as [|d]; [split; reflexivity|]). lia.
Qed.

(** A white-space character is neither a digit nor an underscore nor a
    sign. *)
Lemma is_space_other (c : ascii) :
  Py.is_space c = true ->
  Py.is_underscore c = false
  /\ Py.digit_value c = None
  /\ (nat_of_ascii c =? 43)%nat = false
  /\ (nat_of_ascii c =? 45)%nat = false.
Proof.
  unfold Py.is_space, Py.is_underscore, Py.digit_value.
  generalize (nat_of_ascii c). intros n H.
  apply orb_true_iff in H.
  assert (Hn : (9 <= n <= 13 \/ n = 32)%nat).
  { destruct H as [H | H].
    - apply andb_true_iff in H as [H1 H2].
      apply Nat.leb_le in H1, H2. lia.
    - apply Nat.eqb_eq in H. lia. }
  repeat split.
  - apply Nat.eqb_neq. lia.
  - destruct (48 <=? n)%nat eqn:E1; [|reflexivity].
    destruct (n <=? 57)%nat eqn:E2; [|reflexivity].
    apply Nat.leb_le in E1. lia.
  - apply Nat.eqb_neq. lia.
  - apply Nat.eqb_neq. lia.
Qed.

(** ** The digit loop on a numeral *)

Lemma scan_digits_numeral (ds : list nat) (rest : list ascii)
      (acc : Z) (n : nat) :
  Forall (fun d => (d < 10)%nat) ds ->
  Py.scan_digits ((digit <$> ds) ++ rest)%list false acc n
  = Py.scan_digits rest false
      (fold_left (fun a d => 10 * a + Z.of_nat d) ds acc) (n + length ds).
Proof.
  intros H. revert acc n.
  induction H as [|d ds Hd _ IH]; intros acc n.
  - cbn [fmap list_fmap app fold_left length]. now rewrite Nat.add_0_r.
  - rewrite fmap_cons, <- app_comm_cons.
    cbn [fold_left length Py.scan_digits].
    rewrite is_underscore_digit, digit_value_digit by assumption.
    rewrite IH. f_equal. lia.
Qed.


(** ** White space around the number *)

Lemma list_ascii_of_string_app (a b : string) :
  list_ascii_of_string (a ++ b)
  = (list_ascii_of_string a ++ list_ascii_of_string b)%list.
Proof.
  induction a as [|c a IH]; [reflexivity|].
  cbn [list_ascii_of_string]. rewrite <- app_comm_cons, <- IH. reflexivity.
Qed.

Lemma skip_spaces_blank (ws : list ascii) :
  Forall (fun c => Py.is_space c = true) ws -> Py.skip_spaces ws = [].
Proof.
  induction 1 as [|c l Hc _ IH]; [reflexivity|].
  cbn [Py.skip_spaces]. now rewrite Hc.
Qed.

Lemma skip_spaces_app_r (ws l : list ascii) :
  Forall (fun c => Py.is_space c = true) ws ->
  Py.skip_spaces (l ++ ws)
  = match Py.skip_spaces l with
    | [] => []
    | c :: l' => c :: l' ++ ws
    end%list.
Proof.
  intros Hws. induction l as [|c l IH].
  - rewrite app_nil_l. now rewrite skip_spaces_blank.
  - rewrite <- app_comm_cons. cbn [Py.skip_spaces].
    destruct (Py.is_space c); [exact IH | reflexivity].
Qed.

Lemma scan_digits_app_r (ws l : list ascii) (prev_us : bool) (acc : Z)
      (n : nat) :
  Forall (fun c => Py.is_space c = true) ws ->
  Py.scan_digits (l ++ ws) prev_us acc n
  = match Py.scan_digits l prev_us acc n with
    | Some (v, k, rest) => Some (v, k, (rest ++ ws)%list)
    | None => None
    end.
Proof.
  intros Hws. revert prev_us acc n.
  induction l as [|c l IH]; intros prev_us acc n.
  - rewrite app_nil_l. destruct Hws as [|c l Hc Hl].
    + cbn [Py.scan_digits]. now destruct prev_us.
    + cbn [Py.scan_digits].
      destruct (is_space_other c Hc) as (-> & -> & _).
      now destruct prev_us.
  - rewrite <- app_comm_cons. cbn [Py.scan_digits].
    destruct (Py.is_underscore c).
    + destruct prev_us; [reflexivity | apply IH].
    + destruct (Py.digit_value c); [apply IH|].
      now destruct prev_us.
Qed.

Lemma parse_unsigned_app_r (ws l : list ascii) :
  Forall (fun c => Py.is_space c = true) ws ->
  Py.parse_unsigned (l ++ ws) = Py.parse_unsigned l.
Proof.
  intros Hws. destruct l as [|c l].
  - rewrite app_nil_l. destruct Hws as [|c l Hc Hl]; [reflexivity|].
    unfold Py.parse_unsigned. cbn [Py.scan_digits].
    now destruct (is_space_other c Hc) as (-> & -> & _).
  - unfold Py.parse_unsigned. rewrite <- app_comm_cons.
    destruct (Py.is_underscore c); [reflexivity|].
    rewrite app_comm_cons, scan_digits_app_r by assumption.
    destruct (Py.scan_digits (c :: l) false 0 0) as [[[v k] rest]|];
      [|reflexivity].
    destruct (k =? 0)%nat; [reflexivity|].
    destruct (Py.max_str_digits <? k)%nat; [reflexivity|].
    rewrite skip_spaces_app_r by assumption.
    now destruct (Py.skip_spaces rest).
Qed.

Lemma skip_spaces_app_l (ws l : list ascii) :
  Forall (fun c => Py.is_space c = true) ws ->
  Py.skip_spaces (ws ++ l) = Py.skip_spaces l.
Proof.
  induction 1 as [|c ws Hc _ IH]; [reflexivity|].
  rewrite <- app_comm_cons. cbn [Py.skip_spaces]. now rewrite Hc.
Qed.

Lemma int_of_str_strip (ws1 s ws2 : string) :
  blank ws1 -> blank ws2 ->
  Py.int_of_str (ws1 ++ s ++ ws2) = Py.int_of_str s.
Proof.
  unfold blank, Py.int_of_str. intros H1 H2.
  rewrite !list_ascii_of_string_app.
  rewrite skip_spaces_app_l by assumption.
  rewrite skip_spaces_app_r by assumption.
  destruct (Py.skip_spaces (list_ascii_of_string s)) as [|c l]; [reflexivity|].
  rewrite (parse_unsigned_app_r _ l H2).
  rewrite app_comm_cons, (parse_unsigned_app_r _ (c :: l) H2).
  reflexivity.
Qed.

(** ** Characters [int] does not read *)

Lemma int_char_space (c : ascii) : Py.is_space c = true -> int_char c = true.
Proof. unfold int_char. now intros ->. Qed.

Lemma skip_spaces_chars (l : list ascii) :
  Forall (fun c => int_char c = true) (Py.skip_spaces l) ->
  Forall (fun c => int_char c = true) l.
Proof.
  induction l as [|c l IH]; [trivial|]. cbn [Py.skip_spaces].
  destruct (Py.is_space c) eqn:E; [|trivial].
  intros H. constructor; [now apply int_char_space | now apply IH].
Qed.

Lemma scan_digits_chars (l : list ascii) (prev_us : bool) (acc : Z) (n : nat)
      (v : Z) (k : nat) (rest : list ascii) :
  Py.scan_digits l prev_us acc n = Some (v, k, rest) ->
  Forall (fun c => int_char c = true) rest ->
  Forall (fun c => int_char c = true) l.
Proof.
  revert prev_us acc n. induction l as [|c l IH]; intros prev_us acc n;
    cbn [Py.scan_digits].
  - constructor.
  - destruct (Py.is_underscore c) eqn:Eu.
    + destruct prev_us; [discriminate|]. intros H Hr.
      constructor; [|now apply (IH _ _ _ H)].
      unfold int_char. rewrite Eu. now rewrite orb_true_r.
    + destruct (Py.digit_value c) eqn:Ed.
      * intros H Hr. constructor; [|now apply (IH _ _ _ H)].
        unfold int_char. rewrite Ed. now rewrite !orb_true_r.
      * destruct prev_us; [discriminate|]. now intros [= _ _ <-].
Qed.

Lemma parse_unsigned_chars (l : list ascii) (v : Z) :
  Py.parse_unsigned l = Some v -> Forall (fun c => int_char c = true) l.
Proof.
  unfold Py.parse_unsigned. destruct l as [|c l]; [discriminate|].
  destruct (Py.is_underscore c); [discriminate|].
  destruct (Py.scan_digits (c :: l) false 0 0) as [[[v' k] rest]|] eqn:E;
    [|discriminate].
  destruct (k =? 0)%nat; [discriminate|].
  destruct (Py.max_str_digits <? k)%nat; [discriminate|].
  destruct (Py.skip_spaces rest) eqn:Er; [|discriminate].
  intros _. apply (scan_digits_chars _ _ _ _ _ _ _ E).
  apply skip_spaces_chars. rewrite Er. constructor.
Qed.

Lemma int_of_str_chars (s : string) (v : Z) :
  Py.int_of_str s = Some v ->
  Forall (fun c => int_char c = true) (list_ascii_of_string s).
Proof.
  unfold Py.int_of_str. intros H. apply skip_spaces_chars.
  destruct (Py.skip_spaces (list_ascii_of_string s)) as [|c l];
    [discriminate|].
  destruct (nat_of_ascii c =? 43)%nat eqn:Ep.
  { constructor; [|now apply (parse_unsigned_chars l v)].
    unfold int_char. rewrite Ep. now rewrite !orb_true_r. }
  destruct (nat_of_ascii c =? 45)%nat eqn:Em.
  { destruct (Py.parse_unsigned l) as [v'|] eqn:E; [|discriminate].
    constructor; [|now apply (parse_unsigned_chars l v')].
    unfold int_char. rewrite Em. now rewrite !orb_true_r. }
  now apply (parse_unsigned_chars (c :: l) v).
Qed.

(** ** The parser and the integer literals *)

Lemma numeral_value_step (ds : list nat) :
  numeral_value ds = fold_left step ds 0.
Proof. reflexivity. Qed.

Lemma scan_digits_after_underscore (g : list nat) (rest : list ascii)
      (acc : Z) (n : nat) :
  decimal_group g ->
  Py.scan_digits ((digit <$> g) ++ rest)%list true acc n
  = Py.scan_digits rest false (fold_left step g acc) (n + length g).
Proof.
  intros [Hne Hg]. destruct g as [|d g]; [congruence|].
  pose proof (Forall_inv Hg) as Hd. apply Forall_inv_tail in Hg.
  rewrite fmap_cons, <- app_comm_cons. cbn [Py.scan_digits].
  rewrite is_underscore_digit, digit_value_digit by assumption.
  rewrite scan_digits_numeral by assumption.
  cbn [fold_left length]. f_equal. lia.
Qed.

Lemma scan_digits_groups (gs : list (list nat)) (ws : list ascii)
      (acc : Z) (n : nat) :
  Forall decimal_group gs ->
  Forall (fun c => Py.is_space c = true) ws ->
  Py.scan_digits
    (concat ((fun g => "_"%char :: (digit <$> g)) <$> gs) ++ ws)%list
    false acc n
  = Some (fold_left step (concat gs) acc, (n + length (concat gs))%nat, ws).
Proof.
  intros Hgs Hws. revert acc n.
  induction Hgs as [|g gs Hg _ IH]; intros acc n.
  - cbn [fmap list_fmap concat app fold_left length]. rewrite Nat.add_0_r.
    destruct Hws as [|c ws Hc Hws]; [reflexivity|].
    rewrite app_nil_l. cbn [Py.scan_digits].
    now destruct (is_space_other c Hc) as (-> & -> & _).
  - rewrite fmap_cons. cbn [concat].
    rewrite <- app_assoc, <- app_comm_cons. cbn [Py.scan_digits].
    change (Py.is_underscore "_"%char) with true. cbn iota.
    rewrite scan_digits_after_underscore by assumption.
    rewrite IH. rewrite fold_left_app, length_app.
    now rewrite Nat.add_assoc.
Qed.

Lemma parse_unsigned_literal (g0 : list nat) (gs : list (list nat))
      (ws : list ascii) :
  decimal_group g0 ->
  Forall decimal_group gs ->
  Forall (fun c => Py.is_space c = true) ws ->
  (length (g0 ++ concat gs) <= Py.max_str_digits)%nat ->
  Py.parse_unsigned (underscored g0 gs ++ ws)%list
  = Some (numeral_value (g0 ++ concat gs)).
Proof.
  intros [Hne Hg0] Hgs Hws Hlen.
  destruct g0 as [|d g0]; [congruence|].
  pose proof (Forall_inv Hg0) as Hd.
  unfold underscored, Py.parse_unsigned.
  rewrite <- app_assoc. rewrite fmap_cons, <- app_comm_cons.
  rewrite is_underscore_digit by assumption.
  rewrite app_comm_cons, <- fmap_cons.
  rewrite scan_digits_numeral by assumption.
  rewrite scan_digits_groups by assumption.
  rewrite length_app in Hlen.
  replace (0 + length (d :: g0) + length (concat gs) =? 0)%nat with false
    by (symmetry; apply Nat.eqb_neq; cbn [length]; lia).
  replace (Py.max_str_digits <? 0 + length (d :: g0) + length (concat gs))%nat
    with false by (symmetry; apply Nat.ltb_ge; lia).
  rewrite skip_spaces_blank by assumption.
  now rewrite numeral_value_step, fold_left_app.
Qed.

(** Every integer literal is read, as the number it writes. *)
Lemma int_of_str_literal (s : string) (v : Z) :
  int_literal s v -> Py.int_of_str s = Some v.
Proof.
  intros (ws1 & sg & g0 & gs & ws2 & E & H1 & H2 & Hg0 & Hgs & Hlen & ->).
  unfold Py.int_of_str. rewrite E, skip_spaces_app_l by assumption.
  pose proof (parse_unsigned_literal g0 gs ws2 Hg0 Hgs H2 Hlen) as Hp.
  destruct sg as [[|]|]; cbn [sign_text signed app].
  - change (["-"%char] ++ underscored g0 gs ++ ws2)%list
      with ("-"%char :: underscored g0 gs ++ ws2)%list.
    cbn [Py.skip_spaces]. change (Py.is_space "-"%char) with false. cbn iota.
    change (nat_of_ascii "-" =? 43)%nat with false.
    change (nat_of_ascii "-" =? 45)%nat with true. cbn iota.
    now rewrite Hp.
  - change (["+"%char] ++ underscored g0 gs ++ ws2)%list
      with ("+"%char :: underscored g0 gs ++ ws2)%list.
    cbn [Py.skip_spaces]. change (Py.is_space "+"%char) with false. cbn iota.
    change (nat_of_ascii "+" =? 43)%nat with true. cbn iota.
    exact Hp.
  - destruct Hg0 as [Hne Hg0]. destruct g0 as [|d g0]; [congruence|].
    pose proof (Forall_inv Hg0) as Hd.
    rewrite app_nil_l. unfold underscored in Hp |- *.
    rewrite fmap_cons, <- !app_comm_cons in Hp |- *.
    cbn [Py.skip_spaces]. rewrite is_space_digit by assumption.
    destruct (digit_not_sign d Hd) as [-> ->]. exact Hp.
Qed.

Lemma skip_spaces_split (l : list ascii) :
  exists ws, l = (ws ++ Py.skip_spaces l)%list
             /\ Forall (fun c => Py.is_space c = true) ws.
Proof.
  induction l as [|c l (ws & E & Hws)]; [now exists []|].
  cbn [Py.skip_spaces]. destruct (Py.is_space c) eqn:Ec.
  - exists (c :: ws). split; [now rewrite <- app_comm_cons, <- E|].
    now constructor.
  - now exists [].
Qed.

Lemma skip_spaces_nil (l : list ascii) :
  Py.skip_spaces l = [] -> Forall (fun c => Py.is_space c = true) l.
Proof.
  intros E. destruct (skip_spaces_split l) as (ws & El & Hws).
  rewrite E, app_nil_r in El. now subst.
Qed.

Lemma is_underscore_char (c : ascii) :
  Py.is_underscore c = true -> c = "_"%char.
Proof.
  unfold Py.is_underscore. intros H. apply Nat.eqb_eq in H.
  rewrite <- (ascii_nat_embedding c), H. reflexivity.
Qed.

Lemma digit_value_char (c : ascii) (d : Z) :
  Py.digit_value c = Some d ->
  exists k, (k < 10)%nat /\ c = digit k /\ d = Z.of_nat k.
Proof.
  unfold Py.digit_value.
  destruct ((48 <=? nat_of_ascii c)%nat && (nat_of_ascii c <=? 57)%nat) eqn:E;
    [|discriminate].
  apply andb_true_iff in E as [E1 E2]. apply Nat.leb_le in E1, E2.
  intros [= <-]. exists (nat_of_ascii c - 48)%nat.
  split; [lia|]. split; [|reflexivity].
  unfold digit. replace (48 + (nat_of_ascii c - 48))%nat with (nat_of_ascii c)
    by lia.
  now rewrite ascii_nat_embedding.
Qed.

(** What the digit loop has read when it stops: a run of digits, empty
    only when no underscore came before, then groups of digits, each
    after one underscore. *)
Lemma scan_digits_inv (s : list ascii) (prev_us : bool) (acc : Z) (n : nat)
      (v : Z) (m : nat) (rest : list ascii) :
  Py.scan_digits s prev_us acc n = Some (v, m, rest) ->
  exists g0 gs,
    s = (underscored g0 gs ++ rest)%list
    /\ Forall (fun d => (d < 10)%nat) g0
    /\ (prev_us = true -> g0 <> [])
    /\ Forall decimal_group gs
    /\ v = fold_left step (g0 ++ concat gs) acc
    /\ m = (n + length (g0 ++ concat gs))%nat.
Proof.
  revert prev_us acc n.
  induction s as [|c s IH]; intros prev_us acc n; cbn [Py.scan_digits].
  - destruct prev_us; [discriminate|]. intros [= <- <- <-].
    exists [], []. repeat split; try constructor; [discriminate | cbn; lia].
  - destruct (Py.is_underscore c) eqn:Eu.
    + destruct prev_us; [discriminate|]. intros H.
      apply IH in H as (g0 & gs & -> & Hg0 & Hne & Hgs & -> & ->).
      apply is_underscore_char in Eu as ->.
      exists [], (g0 :: gs). split.
      { unfold underscored. rewrite fmap_cons. cbn [concat].
        change (digit <$> []) with (@nil ascii). rewrite app_nil_l.
        now rewrite <- !app_comm_cons. }
      split; [constructor|]. split; [discriminate|].
      split; [constructor; [split; [now apply Hne | assumption] | assumption]|].
      split; reflexivity.
    + destruct (Py.digit_value c) as [d|] eqn:Ed.
      * intros H.
        apply IH in H as (g0 & gs & -> & Hg0 & _ & Hgs & -> & ->).
        apply digit_value_char in Ed as (k & Hk & -> & ->).
        exists (k :: g0), gs. split.
        { unfold underscored. now rewrite fmap_cons, <- !app_comm_cons. }
        split; [now constructor|]. split; [discriminate|].
        split; [assumption|]. split; [reflexivity|].
        rewrite <- app_comm_cons. cbn [length]. lia.
      * destruct prev_us; [discriminate|]. intros [= <- <- <-].
        exists [], [].
        repeat split; try constructor; [discriminate | cbn; lia].
Qed.

Lemma parse_unsigned_inv (s : list ascii) (v : Z) :
  Py.parse_unsigned s = Some v ->
  exists g0 gs ws,
    s = (underscored g0 gs ++ ws)%list
    /\ Forall (fun c => Py.is_space c = true) ws
    /\ decimal_group g0
    /\ Forall decimal_group gs
    /\ (length (g0 ++ concat gs) <= Py.max_str_digits)%nat
    /\ v = numeral_value (g0 ++ concat gs).
Proof.
  unfold Py.parse_unsigned. destruct s as [|c s]; [discriminate|].
  destruct (Py.is_underscore c) eqn:Eu; [discriminate|].
  destruct (Py.scan_digits (c :: s) false 0 0) as [[[v' k] rest]|] eqn:E;
    [|discriminate].
  destruct (k =? 0)%nat eqn:Ek; [discriminate|].
  destruct (Py.max_str_digits <? k)%nat eqn:Emax; [discriminate|].
  destruct (Py.skip_spaces rest) eqn:Er; [|discriminate].
  intros [= <-]. apply Nat.eqb_neq in Ek. apply Nat.ltb_ge in Emax.
  apply scan_digits_inv in E as (g0 & gs & Es & Hg0 & _ & Hgs & -> & ->).
  exists g0, gs, rest. split; [exact Es|].
  split; [now apply skip_spaces_nil|].
  split; [|split; [assumption | split; [exact Emax | reflexivity]]].
  split; [|assumption]. intros ->.
  destruct gs as [|g gs]; [now apply Ek|].
  unfold underscored in Es. rewrite fmap_cons in Es. cbn [concat] in Es.
  change (digit <$> []) with (@nil ascii) in Es.
  rewrite app_nil_l, <- !app_comm_cons in Es.
  injection Es as -> _. discriminate Eu.
Qed.

(** Whatever is read is an integer literal. *)
Lemma int_of_str_inv (s : string) (v : Z) :
  Py.int_of_str s = Some v -> int_literal s v.
Proof.
  unfold Py.int_of_str.
  destruct (skip_spaces_split (list_ascii_of_string s)) as (ws1 & E & Hws1).
  destruct (Py.skip_spaces (list_ascii_of_string s)) as [|c l];
    [discriminate|].
  destruct (nat_of_ascii c =? 43)%nat eqn:Ep.
  { intros H.
    apply parse_unsigned_inv in H as (g0 & gs & ws2 & -> & H2 & Hg0 & Hgs
                                      & Hlen & ->).
    apply Nat.eqb_eq in Ep.
    assert (Ec : c = "+"%char)
      by (rewrite <- (ascii_nat_embedding c), Ep; reflexivity).
    subst c. now exists ws1, (Some false), g0, gs, ws2. }
  destruct (nat_of_ascii c =? 45)%nat eqn:Em.
  { destruct (Py.parse_unsigned l) as [v'|] eqn:H; [|discriminate].
    intros [= <-].
    apply parse_unsigned_inv in H as (g0 & gs & ws2 & -> & H2 & Hg0 & Hgs
                                      & Hlen & ->).
    apply Nat.eqb_eq in Em.
    assert (Ec : c = "-"%char)
      by (rewrite <- (ascii_nat_embedding c), Em; reflexivity).
    subst c. now exists ws1, (Some true), g0, gs, ws2. }
  intros H.
  apply parse_unsigned_inv in H as (g0 & gs & ws2 & El & H2 & Hg0 & Hgs
                                    & Hlen & ->).
  rewrite El in E. now exists ws1, None, g0, gs, ws2.
Qed.

(** [int] reads exactly the integer literals. *)
Lemma int_of_str_iff (s : string) (v : Z) :
  Py.int_of_str s = Some v <-> int_literal s v.
Proof. split; [apply int_of_str_inv | apply int_of_str_literal]. Qed.

(** ** The port *)






(** ** What [PORT] may hold *)



(** X2: white space before and after an ASCII value of [PORT] is
    ignored: start-up ends as it does for the value without it, on the
    same port or with a [ValueError]. *)
Theorem port_whitespace_ignored (environ : gmap string string)
        (ws1 s ws2 : string) :
  blank ws1 -> blank ws2 ->
  is_ascii s ->
  environ !! "PORT" = Some (ws1 ++ s ++ ws2) ->
  main environ
  = match Py.int_of_str s with
    | Some p => inr (mkProcess environ "0.0.0.0" p)
    | None => inl (Py.ValueError (ws1 ++ s ++ ws2))
    end.
Proof.
  intros H1 H2 _ Hs. unfold main, Py.environ_get. rewrite Hs.
  cbn [Py.int]. rewrite int_of_str_strip by assumption.
  now destruct (Py.int_of_str s).
Qed.

Lemma port_whitespace_ignored_witness :
  main {["PORT" := " 8080" ++ String "010"%char ""]}
  = inr (mkProcess {["PORT" := " 8080" ++ String "010"%char ""]}
           "0.0.0.0" 8080).
Proof.
  refine (port_whitespace_ignored
            {["PORT" := " 8080" ++ String "010"%char ""]}
            " " "8080" (String "010"%char "") _ _ _ eq_refl).
  - repeat constructor.
  - repeat constructor.
  - unfold is_ascii. cbn [list_ascii_of_string].
    repeat (constructor; [apply Nat.ltb_lt; reflexivity|]). constructor.
Defined.

(** X3: a [PORT] that is set but empty, or holds white space only, is
    not taken as unset: start-up ends with a [ValueError] and port 80 is
    not used. *)
Theorem blank_port_value_error (environ : gmap string string) (s : string) :
  blank s ->
  environ !! "PORT" = Some s ->
  main environ = inl (Py.ValueError s).
Proof.
  intros Hb Hs. unfold main, Py.environ_get. rewrite Hs. cbn [Py.int].
  unfold Py.int_of_str. now rewrite skip_spaces_blank.
Qed.

Lemma blank_port_value_error_witness :
  main {["PORT" := ""]} = inl (Py.ValueError "")
  /\ main {["PORT" := "  "]} = inl (Py.ValueError "  ").
Proof.
  split.
  - refine (blank_port_value_error {["PORT" := ""]} "" _ eq_refl).
    constructor.
  - refine (blank_port_value_error {["PORT" := "  "]} "  " _ eq_refl).
    repeat constructor.
Defined.

(** X4: a single ASCII character in [PORT] that is not a decimal digit,
    an underscore, a sign or white space (a letter, a dot, a slash, a
    colon ...) makes start-up end with a [ValueError], wherever it
    stands. *)
Theorem port_foreign_character (environ : gmap string string) (s : string)
        (c : ascii) :
  environ !! "PORT" = Some s ->
  c ∈ list_ascii_of_string s ->
  (nat_of_ascii c < 128)%nat ->
  int_char c = false ->
  main environ = inl (Py.ValueError s).
Proof.
  intros Hs Hin _ Hc. unfold main, Py.environ_get. rewrite Hs. cbn [Py.int].
  destruct (Py.int_of_str s) as [v|] eqn:E; [|reflexivity].
  apply int_of_str_chars in E.
  rewrite Forall_forall in E. apply E in Hin. congruence.
Qed.

Lemma port_foreign_character_witness :
  main {["PORT" := "8080/tcp"]} = inl (Py.ValueError "8080/tcp")
  /\ main {["PORT" := "80.0"]} = inl (Py.ValueError "80.0").
Proof.
  split.
  - refine (port_foreign_character {["PORT" := "8080/tcp"]} "8080/tcp"
              "/"%char eq_refl _ _ eq_refl).
    + cbn [list_ascii_of_string]. repeat constructor.
    + apply Nat.ltb_lt. reflexivity.
  - refine (port_foreign_character {["PORT" := "80.0"]} "80.0"
              "."%char eq_refl _ _ eq_refl).
    + cbn [list_ascii_of_string]. repeat constructor.
    + apply Nat.ltb_lt. reflexivity.
Defined.

(* ===================================================================== *)
(** * Properties of the tests *)
(* ===================================================================== *)

Lemma client_get (user_agent : string) (p : string) (s : TestApp.Session) :
  p ∈ ["/"; "/health"; "/ready"; "/nonexistent"] ->
  TestApp.get user_agent p s
  = ((full_dispatch_request app (bare "GET" p) idle).1, s).
Proof.
  intros Hp. unfold TestApp.get. rewrite full_dispatch_request_state.
  destruct (response_depends
              (mkRequest "GET" p []
                 [("Host", "localhost"); ("User-Agent", user_agent)] "")
              (bare "GET" p) (TestApp.process s) idle
              eq_refl eq_refl eq_refl) as [-> | [_ E]].
  - now destruct s.
  - exfalso.
    repeat (apply elem_of_cons in Hp as [-> | Hp]; [discriminate E|]).
    now apply elem_of_nil in Hp.
Qed.

Lemma client_client (s : TestApp.Session) :
  TestApp.client (TestApp.client s) = TestApp.client s.
Proof.
  unfold TestApp.client. cbn [TestApp.config TestApp.process].
  now rewrite insert_insert_eq.
Qed.

Lemma run_test_passes (user_agent : string) (t : TestApp.test)
      (s : TestApp.Session) :
  TestApp.run_test user_agent t s = (true, TestApp.client s).
Proof.
  destruct t; cbn [TestApp.run_test];
    unfold TestApp.test_hello_endpoint, TestApp.test_health_endpoint,
      TestApp.test_ready_endpoint, TestApp.test_404_endpoint;
    (rewrite client_get; [reflexivity | repeat constructor]).
Qed.

(** X9: the tests pass, each of them, in any order and any number of
    times, in any process state and whatever the test client calls
    itself in [User-Agent]; all a run leaves behind is [TESTING] set in
    [app.config]. *)
Theorem tests_pass (user_agent : string) (ts : list TestApp.test)
        (s : TestApp.Session) :
  Forall (fun passed => passed = true) (TestApp.run_tests user_agent ts s).1
  /\ length (TestApp.run_tests user_agent ts s).1 = length ts
  /\ TestApp.process (TestApp.run_tests user_agent ts s).2
     = TestApp.process s
  /\ (ts <> [] ->
      TestApp.config (TestApp.run_tests user_agent ts s).2
      = <["TESTING" := true]> (TestApp.config s)).
Proof.
  revert s. induction ts as [|t ts IH]; intros s.
  - cbn [TestApp.run_tests fst snd length]. repeat split; [constructor|].
    congruence.
  - cbn [TestApp.run_tests fst snd length]. rewrite run_test_passes.
    cbn [fst snd]. destruct (IH (TestApp.client s)) as (H1 & H2 & H3 & H4).
    split; [now constructor|]. split; [now rewrite H2|].
    split; [exact H3|]. intros _.
    destruct ts as [|t' ts]; [reflexivity|].
    rewrite H4 by discriminate.
    cbn [TestApp.client TestApp.config]. now rewrite insert_insert_eq.
Qed.
